(** * rpi_gpio valve platform: a shallow embedding of [valve.py]

    The module drives a two-wire, polarity-reversing valve actuator through
    three GPIO pins.  Everything the module does is a short sequence of calls
    into the pin driver, the host framework and [time.sleep]; the embedding
    keeps that shape: every function of the source is a computation in a
    state-and-exception monad whose state holds the pin driver, the
    chronological log of the calls made so far and, for methods, the
    receiver object. *)

From Stdlib Require Import ZArith List String Bool Lia.
Import ListNotations.

Open Scope string_scope.
Open Scope Z_scope.
Open Scope list_scope.

(** ** Python values and exceptions *)

(** The exceptions the embedded code can meet.  [GpioError] stands for
    whatever the pin driver raises (a hardware fault, an invalid pin). *)
Inductive PyExn : Type :=
| TypeError
| KeyError
| IndexError
| AttributeError
| GpioError (code : Z).

Inductive Res (A : Type) : Type :=
| Ok (a : A)
| Raise (e : PyExn).
Arguments Ok {A} a.
Arguments Raise {A} e.

(** The dynamically typed values a validated configuration is made of.  A
    dict is an association list: iteration order is insertion order. *)
#[local] Unset Elimination Schemes.
Inductive PyVal : Type :=
| PyNone
| PyInt (z : Z)
| PyStr (s : string)
| PyList (xs : list PyVal)
| PyDict (kvs : list (string * PyVal)).
#[local] Set Elimination Schemes.

Fixpoint lookup (k : string) (kvs : list (string * PyVal)) : option PyVal :=
  match kvs with
  | [] => None
  | (k', v) :: rest => if String.eqb k k' then Some v else lookup k rest
  end.

(** [d.get(key)]: only a dict has the method; a missing key gives [None]. *)
Definition py_get (d : PyVal) (key : string) : Res PyVal :=
  match d with
  | PyDict kvs =>
      match lookup key kvs with
      | Some v => Ok v
      | None => Ok PyNone
      end
  | _ => Raise AttributeError
  end.

(** Python's index normalisation for sequences: a negative index counts
    from the end. *)
Definition seq_index (len i : Z) : option nat :=
  let j := if i <? 0 then i + len else i in
  if (0 <=? j) && (j <? len) then Some (Z.to_nat j) else None.

(** [c[k]]: a dict is indexed by hashable keys, a list or a string by
    integers only, and nothing else is subscriptable. *)
Definition py_getitem (c k : PyVal) : Res PyVal :=
  match c with
  | PyDict kvs =>
      match k with
      | PyStr s =>
          match lookup s kvs with
          | Some v => Ok v
          | None => Raise KeyError
          end
      | PyNone | PyInt _ => Raise KeyError
      | PyList _ | PyDict _ => Raise TypeError
      end
  | PyList xs =>
      match k with
      | PyInt i =>
          match seq_index (Z.of_nat (List.length xs)) i with
          | Some n =>
              match nth_error xs n with
              | Some v => Ok v
              | None => Raise IndexError
              end
          | None => Raise IndexError
          end
      | _ => Raise TypeError
      end
  | PyStr s =>
      match k with
      | PyInt i =>
          match seq_index (Z.of_nat (String.length s)) i with
          | Some n =>
              match String.get n s with
              | Some ch => Ok (PyStr (String ch EmptyString))
              | None => Raise IndexError
              end
          | None => Raise IndexError
          end
      | _ => Raise TypeError
      end
  | PyNone | PyInt _ => Raise TypeError
  end.

Fixpoint chars (s : string) : list PyVal :=
  match s with
  | EmptyString => []
  | String ch rest => PyStr (String ch EmptyString) :: chars rest
  end.

(** [for x in c]: a list yields its elements, a dict its keys, a string its
    characters. *)
Definition py_iter (c : PyVal) : Res (list PyVal) :=
  match c with
  | PyList xs => Ok xs
  | PyDict kvs => Ok (map (fun kv => PyStr (fst kv)) kvs)
  | PyStr s => Ok (chars s)
  | PyNone | PyInt _ => Raise TypeError
  end.

(** The pin driver and the entity constructor are typed here (ports are
    integers, names are strings); a value taken out of the configuration is
    passed to them through these checks, which a validated configuration
    always passes. *)
Definition as_int (v : PyVal) : Res Z :=
  match v with
  | PyInt z => Ok z
  | _ => Raise TypeError
  end.

Definition as_str (v : PyVal) : Res string :=
  match v with
  | PyStr s => Ok s
  | _ => Raise TypeError
  end.

Definition as_opt_str (v : PyVal) : Res (option string) :=
  match v with
  | PyNone => Ok None
  | PyStr s => Ok (Some s)
  | _ => Raise TypeError
  end.

(** ** Constants *)

Definition CONF_VALVES : string := "valves".
Definition CONF_RED_WIRE_PORT : string := "red_wire_port".
Definition CONF_BLACK_WIRE_PORT : string := "black_wire_port".

(** Constants of the host framework ([homeassistant.const] and
    [homeassistant.components.valve]), with the values they have there. *)
Definition CONF_NAME : string := "name".
Definition CONF_PORT : string := "port".
Definition CONF_UNIQUE_ID : string := "unique_id".
Definition DEVICE_DEFAULT_NAME : string := "Unnamed Device".
Definition STATE_OPEN : string := "open".

Inductive ValveDeviceClass : Type := WATER | GAS.

Module ValveEntityFeature.
Definition OPEN : Z := 1.
Definition CLOSE : Z := 2.
Definition SET_POSITION : Z := 4.
Definition STOP : Z := 8.
End ValveEntityFeature.

(** ** The configuration schema *)

(** What [_SWITCH_SCHEMA] lets through: a dict with a string name, a
    non-negative integer port and, when present, a string unique id. *)
Definition _SWITCH_SCHEMA (v : PyVal) : bool :=
  match v with
  | PyDict kvs =>
      match lookup CONF_NAME kvs with
      | Some (PyStr _) => true
      | _ => false
      end
      && match lookup CONF_PORT kvs with
         | Some (PyInt p) => 0 <=? p
         | _ => false
         end
      && match lookup CONF_UNIQUE_ID kvs with
         | None | Some (PyStr _) => true
         | _ => false
         end
  | _ => false
  end.

(** What [PLATFORM_SCHEMA] lets through: the valve definitions as a list
    (after [cv.ensure_list]) and the two wire ports beside it, at the level
    of the block. *)
Definition PLATFORM_SCHEMA (config : PyVal) : bool :=
  match config with
  | PyDict kvs =>
      match lookup CONF_VALVES kvs with
      | Some (PyList vs) => forallb _SWITCH_SCHEMA vs
      | _ => false
      end
      && match lookup CONF_RED_WIRE_PORT kvs with
         | Some (PyInt p) => 0 <=? p
         | _ => false
         end
      && match lookup CONF_BLACK_WIRE_PORT kvs with
         | Some (PyInt p) => 0 <=? p
         | _ => false
         end
  | _ => false
  end.

(** ** The entity *)

Record RPiGPIOValve : Type := mkValve {
  _attr_name : string;
  _attr_unique_id : option string;
  _attr_should_poll : bool;
  _attr_assumed_state : bool;
  _attr_reports_position : bool;
  _attr_device_class : ValveDeviceClass;
  _attr_supported_features : Z;
  _port : Z;
  _red_wire_port : Z;
  _black_wire_port : Z;
  _state : bool
}.

(** [self._state = b] *)
Definition set__state (b : bool) (v : RPiGPIOValve) : RPiGPIOValve :=
  {| _attr_name := _attr_name v;
     _attr_unique_id := _attr_unique_id v;
     _attr_should_poll := _attr_should_poll v;
     _attr_assumed_state := _attr_assumed_state v;
     _attr_reports_position := _attr_reports_position v;
     _attr_device_class := _attr_device_class v;
     _attr_supported_features := _attr_supported_features v;
     _port := _port v;
     _red_wire_port := _red_wire_port v;
     _black_wire_port := _black_wire_port v;
     _state := b |}.

(** The state object the host's restore store hands back; only its label
    is read. *)
Record LastState : Type := { state : string }.

(** ** Calls that leave the module *)

(** Every call into the pin driver, the clock or the host, in the order it
    is made.  A sleep is logged in milliseconds ([sleep(0.5)] is
    [Sleep 500]). *)
Inductive Event : Type :=
| SetupOutput (port : Z)
| WriteOutput (port value : Z)
| Sleep (ms : Z)
| SetupReloadService
| AddEntities (entities : list RPiGPIOValve) (update_before_add : bool)
| AsyncWriteHaState (entity : RPiGPIOValve)
| SuperAddedToHass
| AsyncGetLastState.

(** Modelled from the spec: [setup_output] and [write_output] live in the
    package's [__init__.py], which is not part of the sources at hand.  The
    spec gives their contract only: [setup_output(port)] configures a pin as
    a digital output, [write_output(port, value)] drives a pin to a level,
    and either may fail.  The driver is therefore an interface: a state of
    its own and two transitions that either raise or move on. *)
Class Gpio (Hw : Type) : Type := {
  gpio_setup : Z -> Hw -> PyExn + Hw;
  gpio_write : Z -> Z -> Hw -> PyExn + Hw
}.

(** ** The state-and-exception monad *)

Definition M (S A : Type) : Type := S -> Res A * S.

Definition ret {S A : Type} (a : A) : M S A := fun s => (Ok a, s).

Definition bind {S A B : Type} (m : M S A) (k : A -> M S B) : M S B :=
  fun s =>
    match m s with
    | (Ok a, s') => k a s'
    | (Raise e, s') => (Raise e, s')
    end.

(** A pure step that may raise. *)
Definition pure {S A : Type} (r : Res A) : M S A := fun s => (r, s).

Declare Scope prog_scope.
Delimit Scope prog_scope with prog.
Notation "x <- c ;; k" := (bind c (fun x => k))
  (at level 61, c at next level, right associativity) : prog_scope.
Notation "c ;; k" := (bind c (fun _ => k))
  (at level 61, right associativity) : prog_scope.
Open Scope prog_scope.

Fixpoint for_each {S A B : Type} (xs : list A) (body : A -> M S B)
  : M S (list B) :=
  match xs with
  | [] => ret []
  | x :: rest =>
      y <- body x ;;
      ys <- for_each rest body ;;
      ret (y :: ys)
  end.

Section Valve.

Context {Hw : Type} {G : Gpio Hw}.

(** What the module runs in: the pin driver, the calls made so far and what
    the host's restore store holds for the entity being attached. *)
Record World : Type := mkWorld {
  hw : Hw;
  log : list Event;
  last_state : option LastState
}.

(** A method runs on its receiver and the world. *)
Record Obj : Type := mkObj {
  self : RPiGPIOValve;
  world : World
}.

Definition Prog (A : Type) : Type := M World A.
Definition Method (A : Type) : Type := M Obj A.

Definition emit (ev : Event) : Prog unit :=
  fun w => (Ok tt, mkWorld (hw w) (log w ++ [ev]) (last_state w)).

(** A call into the driver is logged when it is made; the driver then
    either raises or moves to its next state. *)
Definition setup_output (port : Z) : Prog unit :=
  emit (SetupOutput port) ;;
  fun w =>
    match gpio_setup port (hw w) with
    | inl e => (Raise e, w)
    | inr h => (Ok tt, mkWorld h (log w) (last_state w))
    end.

Definition write_output (port value : Z) : Prog unit :=
  emit (WriteOutput port value) ;;
  fun w =>
    match gpio_write port value (hw w) with
    | inl e => (Raise e, w)
    | inr h => (Ok tt, mkWorld h (log w) (last_state w))
    end.

Definition sleep (ms : Z) : Prog unit := emit (Sleep ms).

Definition async_get_last_state : Prog (option LastState) :=
  emit AsyncGetLastState ;;
  fun w => (Ok (last_state w), w).

(** Inside a method: a call that only touches the world, a read of an
    attribute of [self], and the assignment to [self._state]. *)
Definition call {A : Type} (m : Prog A) : Method A :=
  fun o => let (r, w') := m (world o) in (r, mkObj (self o) w').

Definition attr {A : Type} (f : RPiGPIOValve -> A) : Method A :=
  fun o => (Ok (f (self o)), o).

Definition assign__state (b : bool) : Method unit :=
  fun o => (Ok tt, mkObj (set__state b (self o)) (world o)).

(** [self.async_write_ha_state()]: the host reads the entity as it is at
    the moment of the call. *)
Definition async_write_ha_state : Method unit :=
  me <- attr (fun v => v) ;;
  call (emit (AsyncWriteHaState me)).

(** *** [class RPiGPIOValve] *)

Definition RPiGPIOValve__init__
  (name : string) (port red_wire_port black_wire_port : Z)
  (unique_id : option string) (skip_reset : bool) : Prog RPiGPIOValve :=
  let me :=
    {| _attr_name := if String.eqb name "" then DEVICE_DEFAULT_NAME else name;
       _attr_unique_id := unique_id;
       _attr_should_poll := false;
       _attr_assumed_state := true;
       _attr_reports_position := false;
       _attr_device_class := WATER;
       _attr_supported_features :=
         Z.lor ValveEntityFeature.OPEN ValveEntityFeature.CLOSE;
       _port := port;
       _red_wire_port := red_wire_port;
       _black_wire_port := black_wire_port;
       _state := false |} in
  setup_output (_port me) ;;
  (if negb skip_reset then
     write_output (_red_wire_port me) 1 ;;
     write_output (_black_wire_port me) 0 ;;
     sleep 500 ;;
     write_output (_port me) 1
   else ret tt) ;;
  ret me.

Definition _pulse : Method unit :=
  port <- attr _port ;;
  call (write_output port 0) ;;
  call (sleep 100) ;;
  port <- attr _port ;;
  call (write_output port 1).

Definition is_closed : Method bool :=
  st <- attr _state ;;
  ret (negb st).

Definition async_open_valve : Method unit :=
  red <- attr _red_wire_port ;;
  call (write_output red 0) ;;
  black <- attr _black_wire_port ;;
  call (write_output black 1) ;;
  call (sleep 500) ;;
  _pulse ;;
  assign__state false ;;
  async_write_ha_state.

Definition async_close_valve : Method unit :=
  red <- attr _red_wire_port ;;
  call (write_output red 1) ;;
  black <- attr _black_wire_port ;;
  call (write_output black 0) ;;
  call (sleep 500) ;;
  _pulse ;;
  assign__state true ;;
  async_write_ha_state.

(** *** [class PersistentRPiGPIOValve] *)

Definition PersistentRPiGPIOValve__init__
  (name : string) (port red_wire_port black_wire_port : Z)
  (unique_id : option string) : Prog RPiGPIOValve :=
  RPiGPIOValve__init__ name port red_wire_port black_wire_port unique_id true.

Definition async_added_to_hass : Method unit :=
  call (emit SuperAddedToHass) ;;
  restored <- call async_get_last_state ;;
  match restored with
  | None => ret tt
  | Some st =>
      assign__state (if String.eqb (state st) STATE_OPEN then false else true) ;;
      closed <- attr _state ;;
      if closed then async_close_valve else async_open_valve
  end.

(** *** [setup_platform] *)

Definition setup_platform (config : PyVal) : Prog unit :=
  emit SetupReloadService ;;
  valves_conf <- pure (py_get config CONF_VALVES) ;;
  red <- pure (py_getitem valves_conf (PyStr CONF_RED_WIRE_PORT)) ;;
  red <- pure (as_int red) ;;
  setup_output red ;;
  black <- pure (py_getitem valves_conf (PyStr CONF_BLACK_WIRE_PORT)) ;;
  black <- pure (as_int black) ;;
  setup_output black ;;
  items <- pure (py_iter valves_conf) ;;
  valves <- for_each items (fun valve =>
    name <- pure (py_getitem valve (PyStr CONF_NAME)) ;;
    port <- pure (py_getitem valve (PyStr CONF_PORT)) ;;
    red <- pure (py_getitem valves_conf (PyStr CONF_RED_WIRE_PORT)) ;;
    black <- pure (py_getitem valves_conf (PyStr CONF_BLACK_WIRE_PORT)) ;;
    unique_id <- pure (py_get valve CONF_UNIQUE_ID) ;;
    name <- pure (as_str name) ;;
    port <- pure (as_int port) ;;
    red <- pure (as_int red) ;;
    black <- pure (as_int black) ;;
    unique_id <- pure (as_opt_str unique_id) ;;
    PersistentRPiGPIOValve__init__ name port red black unique_id) ;;
  emit (AddEntities valves true).

End Valve.

Arguments World Hw : clear implicits.
Arguments Obj Hw : clear implicits.
Arguments Prog Hw A : clear implicits.
Arguments Method Hw A : clear implicits.


(** ** The two commands side by side *)

(** The writes a command sends to the driver, in order. *)
Definition open_writes (v : RPiGPIOValve) : list (Z * Z) :=
  [(_red_wire_port v, 0); (_black_wire_port v, 1); (_port v, 0); (_port v, 1)].

Definition close_writes (v : RPiGPIOValve) : list (Z * Z) :=
  [(_red_wire_port v, 1); (_black_wire_port v, 0); (_port v, 0); (_port v, 1)].

(** The calls the spec lists for each command, before the notification. *)
Definition open_calls (v : RPiGPIOValve) : list Event :=
  [WriteOutput (_red_wire_port v) 0; WriteOutput (_black_wire_port v) 1;
   Sleep 500;
   WriteOutput (_port v) 0; Sleep 100; WriteOutput (_port v) 1].

Definition close_calls (v : RPiGPIOValve) : list Event :=
  [WriteOutput (_red_wire_port v) 1; WriteOutput (_black_wire_port v) 0;
   Sleep 500;
   WriteOutput (_port v) 0; Sleep 100; WriteOutput (_port v) 1].

Inductive Command : Type := OpenValve | CloseValve.

Definition command_writes (c : Command) : RPiGPIOValve -> list (Z * Z) :=
  match c with
  | OpenValve => open_writes
  | CloseValve => close_writes
  end.

Definition command_calls (c : Command) : RPiGPIOValve -> list Event :=
  match c with
  | OpenValve => open_calls
  | CloseValve => close_calls
  end.

Definition run_command {Hw : Type} {G : Gpio Hw} (c : Command)
  : Method Hw unit :=
  match c with
  | OpenValve => async_open_valve
  | CloseValve => async_close_valve
  end.

(** What the driver makes of a list of writes: the first exception, or the
    state it ends in. *)
Fixpoint gpio_writes {Hw : Type} {G : Gpio Hw} (ws : list (Z * Z)) (h : Hw)
  : PyExn + Hw :=
  match ws with
  | [] => inr h
  | (port, value) :: rest =>
      match gpio_write port value h with
      | inl e => inl e
      | inr h' => gpio_writes rest h'
      end
  end.

(** Every operation an entity offers once it is constructed. *)
Inductive Operation : Type :=
| DoOpen
| DoClose
| DoIsClosed
| DoAddedToHass.

Definition run_operation {Hw : Type} {G : Gpio Hw} (op : Operation)
  : Method Hw unit :=
  match op with
  | DoOpen => async_open_valve
  | DoClose => async_close_valve
  | DoIsClosed => is_closed ;; ret tt
  | DoAddedToHass => async_added_to_hass
  end.

(** ** Two pin drivers to run the code on *)

(** A board on which every pin works: it remembers which pins are outputs
    and the levels written, latest first. *)
Record Board : Type := mkBoard {
  outputs : list Z;
  levels : list (Z * Z)
}.

#[export] Instance board_gpio : Gpio Board := {
  gpio_setup port b := inr (mkBoard (port :: outputs b) (levels b));
  gpio_write port value b := inr (mkBoard (outputs b) ((port, value) :: levels b))
}.

(** A board that takes a given number of writes and raises on the next. *)
Record WornBoard : Type := mkWorn { writes_left : nat }.

#[export] Instance worn_gpio : Gpio WornBoard := {
  gpio_setup port b := inr b;
  gpio_write port value b :=
    match writes_left b with
    | O => inl (GpioError port)
    | S n => inr (mkWorn n)
    end
}.

Definition fresh_board : Board := mkBoard [] [].

(** The scenario of the spec: one valve on port 17, red wire on 22, black
    wire on 23, no unique id. *)
Definition garden_valve : RPiGPIOValve :=
  {| _attr_name := "Garden";
     _attr_unique_id := None;
     _attr_should_poll := false;
     _attr_assumed_state := true;
     _attr_reports_position := false;
     _attr_device_class := WATER;
     _attr_supported_features := 3;
     _port := 17;
     _red_wire_port := 22;
     _black_wire_port := 23;
     _state := false |}.

Definition garden_config : PyVal :=
  PyDict
    [("platform", PyStr "rpi_gpio");
     (CONF_VALVES,
      PyList [PyDict [(CONF_NAME, PyStr "Garden"); (CONF_PORT, PyInt 17)]]);
     (CONF_RED_WIRE_PORT, PyInt 22);
     (CONF_BLACK_WIRE_PORT, PyInt 23)].

(** The value a command leaves in [self._state]. *)
Definition command_state (c : Command) : bool :=
  match c with
  | OpenValve => false
  | CloseValve => true
  end.

(** Two entities that differ at most in [_state]. *)
Definition same_configuration (v v' : RPiGPIOValve) : Prop :=
  _attr_name v' = _attr_name v
  /\ _attr_unique_id v' = _attr_unique_id v
  /\ _attr_should_poll v' = _attr_should_poll v
  /\ _attr_assumed_state v' = _attr_assumed_state v
  /\ _attr_reports_position v' = _attr_reports_position v
  /\ _attr_device_class v' = _attr_device_class v
  /\ _attr_supported_features v' = _attr_supported_features v
  /\ _port v' = _port v
  /\ _red_wire_port v' = _red_wire_port v
  /\ _black_wire_port v' = _black_wire_port v.

(** The entity [__init__] builds from its arguments. *)
Definition constructed (name : string) (port red_wire_port black_wire_port : Z)
  (unique_id : option string) : RPiGPIOValve :=
  {| _attr_name := if String.eqb name "" then DEVICE_DEFAULT_NAME else name;
     _attr_unique_id := unique_id;
     _attr_should_poll := false;
     _attr_assumed_state := true;
     _attr_reports_position := false;
     _attr_device_class := WATER;
     _attr_supported_features := 3;
     _port := port;
     _red_wire_port := red_wire_port;
     _black_wire_port := black_wire_port;
     _state := false |}.

(** ** Histories *)

(** A run of operations on one entity, as the host makes them one after the
    other: a call that raises does not end the life of the entity, the next
    call finds it as the failed one left it. *)
Fixpoint run_operations {Hw : Type} {G : Gpio Hw} (ops : list Operation)
  (o : Obj Hw) : Obj Hw :=
  match ops with
  | [] => o
  | op :: rest => run_operations rest (snd (run_operation op o))
  end.

(** The time a log spends in [sleep], in milliseconds. *)
Fixpoint slept (evs : list Event) : Z :=
  match evs with
  | [] => 0
  | Sleep ms :: rest => ms + slept rest
  | _ :: rest => slept rest
  end.

(** The level last written to a pin in a log, if it was written at all. *)
Fixpoint last_write (port : Z) (evs : list Event) : option Z :=
  match evs with
  | [] => None
  | ev :: rest =>
      match last_write port rest with
      | Some value => Some value
      | None =>
          match ev with
          | WriteOutput p value => if p =? port then Some value else None
          | _ => None
          end
      end
  end.

(** The calls of the reset sequence of [__init__], after the configuration
    of the valve pin. *)
Definition reset_calls (port red black : Z) : list Event :=
  [WriteOutput red 1; WriteOutput black 0; Sleep 500; WriteOutput port 1].

(** A 40-pin header: only the pins 0 to 27 exist, and a call on any other
    raises. *)
Record Header : Type := mkHeader { driven : list (Z * Z) }.

Definition on_header (port : Z) : bool := (0 <=? port) && (port <=? 27).

#[export] Instance header_gpio : Gpio Header := {
  gpio_setup port b :=
    if on_header port then inr b else inl (GpioError port);
  gpio_write port value b :=
    if on_header port then inr (mkHeader ((port, value) :: driven b))
    else inl (GpioError port)
}.

(** * Properties *)

Ltac unfold_prog :=
  unfold run_command, run_operation, async_added_to_hass, async_open_valve,
    async_close_valve, _pulse, is_closed, async_write_ha_state, assign__state,
    async_get_last_state, PersistentRPiGPIOValve__init__, RPiGPIOValve__init__,
    attr, call, write_output, setup_output, sleep, emit, bind, ret, pure in *.

Ltac step_gpio :=
  match goal with
  | |- context [gpio_write ?p ?v ?h] =>
      destruct (gpio_write p v h) eqn:?; cbn in *; try discriminate
  | |- context [gpio_setup ?p ?h] =>
      destruct (gpio_setup p h) eqn:?; cbn in *; try discriminate
  end.

Ltac tidy_log := repeat rewrite <- app_assoc; cbn [app].

Section Runs.

Context {Hw : Type} {G : Gpio Hw}.

(** ** Open and close *)

(** When the driver takes the four writes, a command runs to its end: the
    six calls, the assignment, the notification. *)
Lemma run_command_ok (c : Command) (o : Obj Hw) (h' : Hw) :
  gpio_writes (command_writes c (self o)) (hw (world o)) = inr h' ->
  run_command c o =
    (Ok tt,
     mkObj (set__state (command_state c) (self o))
       (mkWorld h'
          (log (world o) ++ command_calls c (self o)
             ++ [AsyncWriteHaState (set__state (command_state c) (self o))])
          (last_state (world o)))).
Proof.
  destruct o as [v [h l ls]], c; cbn; intros H; unfold_prog; cbn.
  all: repeat step_gpio.
  all: inversion H; subst; tidy_log; reflexivity.
Qed.

(** When one of the four writes raises, the command stops there. *)
Lemma run_command_raise (c : Command) (o : Obj Hw) (e : PyExn) :
  gpio_writes (command_writes c (self o)) (hw (world o)) = inl e ->
  exists (k : nat) (h' : Hw),
    run_command c o =
      (Raise e,
       mkObj (self o)
         (mkWorld h'
            (log (world o) ++ firstn k (command_calls c (self o)))
            (last_state (world o)))).
Proof.
  destruct o as [v [h l ls]], c; cbn; intros H; unfold_prog; cbn;
    (step_gpio;
     [ inversion H; subst; exists 1%nat; eexists; reflexivity | ]);
    (step_gpio;
     [ inversion H; subst; exists 2%nat; eexists; tidy_log; reflexivity | ]);
    (step_gpio;
     [ inversion H; subst; exists 4%nat; eexists; tidy_log; reflexivity | ]);
    step_gpio;
    inversion H; subst; exists 6%nat; eexists; tidy_log; reflexivity.
Qed.

(** What [is_closed] answers once a command has run to its end. *)
Lemma is_closed_after_command (c : Command) (o : Obj Hw) (h' : Hw) :
  gpio_writes (command_writes c (self o)) (hw (world o)) = inr h' ->
  fst (is_closed (snd (run_command c o))) = Ok (negb (command_state c)).
Proof.
  intros H. rewrite (run_command_ok c o h' H). reflexivity.
Qed.

(** A command run twice answers as a command run once. *)
Lemma is_closed_after_repeat (c : Command) (o : Obj Hw) (h1 h2 : Hw) :
  gpio_writes (command_writes c (self o)) (hw (world o)) = inr h1 ->
  gpio_writes (command_writes c (self o)) h1 = inr h2 ->
  fst (is_closed (snd (run_command c (snd (run_command c o)))))
  = fst (is_closed (snd (run_command c o))).
Proof.
  intros H1 H2. rewrite (run_command_ok c o h1 H1). cbn [snd].
  erewrite run_command_ok.
  - destruct c; reflexivity.
  - destruct c, o as [v w]; exact H2.
Qed.

(** ** Construction *)

Lemma init_with_reset (name : string) (port red black : Z)
  (unique_id : option string) (w : World Hw) (h1 h2 : Hw) :
  gpio_setup port (hw w) = inr h1 ->
  gpio_writes [(red, 1); (black, 0); (port, 1)] h1 = inr h2 ->
  RPiGPIOValve__init__ name port red black unique_id false w =
    (Ok (constructed name port red black unique_id),
     mkWorld h2
       (log w ++ [SetupOutput port; WriteOutput red 1; WriteOutput black 0;
                  Sleep 500; WriteOutput port 1])
       (last_state w)).
Proof.
  destruct w as [h l ls]; cbn; intros H1 H2; unfold_prog; cbn.
  rewrite H1; cbn.
  repeat step_gpio.
  inversion H2; subst; tidy_log; reflexivity.
Qed.

(** ** Restoration *)

Lemma restore_nothing (o : Obj Hw) :
  last_state (world o) = None ->
  async_added_to_hass o =
    (Ok tt,
     mkObj (self o)
       (mkWorld (hw (world o))
          (log (world o) ++ [SuperAddedToHass; AsyncGetLastState])
          None)).
Proof.
  destruct o as [v [h l ls]]; cbn; intros ->.
  unfold_prog; cbn. tidy_log. reflexivity.
Qed.

(** A stored label sends the entity through the open command when it is
    [STATE_OPEN] and through the close command otherwise. *)
Lemma restore_label (o : Obj Hw) (st : LastState) (h' : Hw) :
  last_state (world o) = Some st ->
  let c := if String.eqb (state st) STATE_OPEN then OpenValve else CloseValve in
  gpio_writes (command_writes c (self o)) (hw (world o)) = inr h' ->
  async_added_to_hass o =
    (Ok tt,
     mkObj (set__state (command_state c) (self o))
       (mkWorld h'
          (log (world o) ++ [SuperAddedToHass; AsyncGetLastState]
             ++ command_calls c (self o)
             ++ [AsyncWriteHaState (set__state (command_state c) (self o))])
          (Some st))).
Proof.
  destruct o as [v [h l ls]]; cbn -[String.eqb]; intros ->.
  destruct (String.eqb (state st) STATE_OPEN) eqn:E; cbn; intros H.
  all: unfold_prog; cbn.
  all: repeat step_gpio.
  all: inversion H; subst; tidy_log; reflexivity.
Qed.

(** ** Platform setup *)

(** On a configuration the schema accepts, [valves_conf] is the list of
    valve definitions, and indexing it with the name of a wire port raises
    before any pin is configured. *)
Lemma setup_platform_raises (config : PyVal) (w : World Hw) :
  PLATFORM_SCHEMA config = true ->
  setup_platform config w =
    (Raise TypeError,
     mkWorld (hw w) (log w ++ [SetupReloadService]) (last_state w)).
Proof.
  destruct config as [| z | s | xs | kvs]; try discriminate.
  unfold PLATFORM_SCHEMA. intros H.
  destruct (lookup CONF_VALVES kvs) as [[| z | s | vs | d] |] eqn:E;
    try discriminate.
  unfold setup_platform, bind, pure, emit, py_get. rewrite E. reflexivity.
Qed.

End Runs.

(** * The claims *)

Section Claims.

Context {Hw : Type} {G : Gpio Hw}.

(** C5: whatever the state of the entity, when the driver takes the writes,
    [async_open_valve] makes exactly these calls in this order: write red
    wire 0, write black wire 1, sleep 500 ms, write valve pin 0, sleep
    100 ms, write valve pin 1; it then stores [False] (open) in [_state] and
    notifies the host, which sees the entity with the new state. *)
Theorem async_open_valve_sequence (o : Obj Hw) (h' : Hw) :
  gpio_writes (open_writes (self o)) (hw (world o)) = inr h' ->
  async_open_valve o =
    (Ok tt,
     mkObj (set__state false (self o))
       (mkWorld h'
          (log (world o)
             ++ [WriteOutput (_red_wire_port (self o)) 0;
                 WriteOutput (_black_wire_port (self o)) 1;
                 Sleep 500;
                 WriteOutput (_port (self o)) 0;
                 Sleep 100;
                 WriteOutput (_port (self o)) 1;
                 AsyncWriteHaState (set__state false (self o))])
          (last_state (world o)))).
Proof.
  intros H. exact (run_command_ok OpenValve o h' H).
Qed.

(** C6: whatever the state of the entity, when the driver takes the writes,
    [async_close_valve] makes exactly these calls in this order: write red
    wire 1, write black wire 0, sleep 500 ms, write valve pin 0, sleep
    100 ms, write valve pin 1; it then stores [True] (closed) in [_state]
    and notifies the host, which sees the entity with the new state. *)
Theorem async_close_valve_sequence (o : Obj Hw) (h' : Hw) :
  gpio_writes (close_writes (self o)) (hw (world o)) = inr h' ->
  async_close_valve o =
    (Ok tt,
     mkObj (set__state true (self o))
       (mkWorld h'
          (log (world o)
             ++ [WriteOutput (_red_wire_port (self o)) 1;
                 WriteOutput (_black_wire_port (self o)) 0;
                 Sleep 500;
                 WriteOutput (_port (self o)) 0;
                 Sleep 100;
                 WriteOutput (_port (self o)) 1;
                 AsyncWriteHaState (set__state true (self o))])
          (last_state (world o)))).
Proof.
  intros H. exact (run_command_ok CloseValve o h' H).
Qed.

(** C7: [is_closed] is a pure query: it answers the negation of the stored
    boolean, makes no call (the log and the driver are as before) and
    leaves the entity as it was. *)
Theorem is_closed_pure (o : Obj Hw) :
  is_closed o = (Ok (negb (_state (self o))), o).
Proof.
  reflexivity.
Qed.

(** C8: when one of the writes of an open or a close sequence raises, the
    call ends with that very exception, [_state] (indeed the whole entity)
    is as before the call, and the calls made are an initial part of the
    sequence: nothing is retried, nothing else is tried, and the host is
    not notified. *)
Theorem gpio_fault_propagates (c : Command) (o : Obj Hw) (e : PyExn) :
  gpio_writes (command_writes c (self o)) (hw (world o)) = inl e ->
  fst (run_command c o) = Raise e
  /\ self (snd (run_command c o)) = self o
  /\ exists k : nat,
       log (world (snd (run_command c o)))
       = log (world o) ++ firstn k (command_calls c (self o)).
Proof.
  intros H. destruct (run_command_raise c o e H) as (k & h' & ->).
  repeat split. exists k. reflexivity.
Qed.

(** C9: [PersistentRPiGPIOValve.__init__] is the base constructor with
    [skip_reset] set; the only call it makes is the configuration of the
    valve pin as an output: no pin is written, and the driver is touched by
    that configuration alone. *)
Theorem persistent_init_only_configures
  (name : string) (port red black : Z) (unique_id : option string)
  (w : World Hw) :
  PersistentRPiGPIOValve__init__ name port red black unique_id
  = RPiGPIOValve__init__ name port red black unique_id true
  /\ PersistentRPiGPIOValve__init__ name port red black unique_id w
     = match gpio_setup port (hw w) with
       | inl e =>
           (Raise e,
            mkWorld (hw w) (log w ++ [SetupOutput port]) (last_state w))
       | inr h =>
           (Ok (constructed name port red black unique_id),
            mkWorld h (log w ++ [SetupOutput port]) (last_state w))
       end.
Proof.
  split; [reflexivity |].
  destruct w as [h l ls]. unfold_prog; cbn.
  destruct (gpio_setup port h); reflexivity.
Qed.

(** C10: whichever operation runs on a constructed entity (open, close,
    the closed-state query, restoration) and however it ends, the port,
    the two wire ports, the name, the unique id and the capability and
    device attributes are what they were; only [_state] may differ. *)
Theorem operations_keep_configuration (op : Operation) (o : Obj Hw) :
  same_configuration (self o) (self (snd (run_operation op o))).
Proof.
  destruct o as [v [h l ls]], op; unfold same_configuration.
  - unfold_prog; cbn; repeat step_gpio; repeat split.
  - unfold_prog; cbn; repeat step_gpio; repeat split.
  - repeat split.
  - destruct ls as [st |]; [| repeat split].
    unfold_prog; cbn -[String.eqb].
    destruct (String.eqb (state st) STATE_OPEN); cbn;
      repeat step_gpio; repeat split.
Qed.

End Claims.

(** The open sequence on the spec's scenario, on a board that takes every
    write. *)
Lemma async_open_valve_sequence_witness :
  gpio_writes (open_writes garden_valve) fresh_board
  = inr (mkBoard [] [(17, 1); (17, 0); (23, 1); (22, 0)])
  /\ async_open_valve (mkObj garden_valve (mkWorld fresh_board [] None))
     = (Ok tt,
        mkObj garden_valve
          (mkWorld (mkBoard [] [(17, 1); (17, 0); (23, 1); (22, 0)])
             [WriteOutput 22 0; WriteOutput 23 1; Sleep 500;
              WriteOutput 17 0; Sleep 100; WriteOutput 17 1;
              AsyncWriteHaState garden_valve]
             None)).
Proof.
  split; [reflexivity |].
  apply (async_open_valve_sequence
           (mkObj garden_valve (mkWorld fresh_board [] None))
           (mkBoard [] [(17, 1); (17, 0); (23, 1); (22, 0)])).
  reflexivity.
Defined.

(** The close sequence on the spec's scenario, on a board that takes every
    write. *)
Lemma async_close_valve_sequence_witness :
  gpio_writes (close_writes garden_valve) fresh_board
  = inr (mkBoard [] [(17, 1); (17, 0); (23, 0); (22, 1)])
  /\ async_close_valve (mkObj garden_valve (mkWorld fresh_board [] None))
     = (Ok tt,
        mkObj (set__state true garden_valve)
          (mkWorld (mkBoard [] [(17, 1); (17, 0); (23, 0); (22, 1)])
             [WriteOutput 22 1; WriteOutput 23 0; Sleep 500;
              WriteOutput 17 0; Sleep 100; WriteOutput 17 1;
              AsyncWriteHaState (set__state true garden_valve)]
             None)).
Proof.
  split; [reflexivity |].
  apply (async_close_valve_sequence
           (mkObj garden_valve (mkWorld fresh_board [] None))
           (mkBoard [] [(17, 1); (17, 0); (23, 0); (22, 1)])).
  reflexivity.
Defined.

(** A fault in the middle of the open sequence: a board that takes two
    writes and raises on the third, the first write of the pulse. *)
Lemma gpio_fault_propagates_witness :
  gpio_writes (command_writes OpenValve garden_valve) (mkWorn 2)
  = inl (GpioError 17)
  /\ fst (run_command OpenValve
            (mkObj garden_valve (mkWorld (mkWorn 2) [] None)))
     = Raise (GpioError 17)
  /\ self (snd (run_command OpenValve
                  (mkObj garden_valve (mkWorld (mkWorn 2) [] None))))
     = garden_valve
  /\ exists k : nat,
       log (world (snd (run_command OpenValve
                          (mkObj garden_valve (mkWorld (mkWorn 2) [] None)))))
       = [] ++ firstn k (command_calls OpenValve garden_valve).
Proof.
  split; [reflexivity |].
  apply (gpio_fault_propagates OpenValve
           (mkObj garden_valve (mkWorld (mkWorn 2) [] None))
           (GpioError 17)).
  reflexivity.
Defined.

(** C1: on the code the closed-state query answers the wrong way round.
    On the spec's valve, with a board that takes every write,
    [async_close_valve] runs to its end and [is_closed] then answers
    [False]; [async_open_valve] runs to its end and [is_closed] then
    answers [True]. *)
Theorem is_closed_after_close_and_open :
  let o := mkObj garden_valve (mkWorld fresh_board [] None) in
  fst (async_close_valve o) = Ok tt
  /\ fst (is_closed (snd (async_close_valve o))) = Ok false
  /\ fst (async_open_valve o) = Ok tt
  /\ fst (is_closed (snd (async_open_valve o))) = Ok true.
Proof.
  cbv zeta. repeat split; vm_compute; reflexivity.
Qed.

(** C2: on the configuration of the spec's scenario, which the schema
    accepts, [setup_platform] raises [TypeError] right after registering
    the reload service: no pin is configured and no entity is built. *)
Theorem setup_platform_garden :
  PLATFORM_SCHEMA garden_config = true
  /\ setup_platform garden_config (mkWorld fresh_board [] None)
     = (Raise TypeError, mkWorld fresh_board [SetupReloadService] None).
Proof.
  split; vm_compute; reflexivity.
Qed.

(** C3: restoration on the spec's valve with a board that takes every
    write.  With the stored label ["open"] the open sequence is issued and
    [is_closed] then answers [True]; with the label ["closed"] the close
    sequence is issued and [is_closed] then answers [False]. *)
Theorem restore_garden :
  let attached (label : string) :=
    snd (async_added_to_hass
           (mkObj garden_valve
              (mkWorld fresh_board [] (Some {| state := label |})))) in
  log (world (attached "open"))
  = [SuperAddedToHass; AsyncGetLastState] ++ open_calls garden_valve
      ++ [AsyncWriteHaState (self (attached "open"))]
  /\ fst (is_closed (attached "open")) = Ok true
  /\ log (world (attached "closed"))
     = [SuperAddedToHass; AsyncGetLastState] ++ close_calls garden_valve
         ++ [AsyncWriteHaState (self (attached "closed"))]
  /\ fst (is_closed (attached "closed")) = Ok false.
Proof.
  cbv zeta. repeat split; vm_compute; reflexivity.
Qed.

(** C4: constructing the spec's valve without [skip_reset], on a board
    that takes every call, configures the valve pin and then writes red
    wire 1, black wire 0, sleeps 500 ms and writes valve pin 1; [_state] is
    [False], and [is_closed] answers [True] on the entity just built. *)
Theorem construct_garden :
  RPiGPIOValve__init__ "Garden" 17 22 23 None false
    (mkWorld fresh_board [] None)
  = (Ok garden_valve,
     mkWorld (mkBoard [17] [(17, 1); (23, 0); (22, 1)])
       [SetupOutput 17; WriteOutput 22 1; WriteOutput 23 0; Sleep 500;
        WriteOutput 17 1]
       None)
  /\ _state garden_valve = false
  /\ fst (is_closed (mkObj garden_valve (mkWorld fresh_board [] None)))
     = Ok true.
Proof.
  repeat split; vm_compute; reflexivity.
Qed.

(** * Beyond the claims *)

Section Setup.

Context {Hw : Type} {G : Gpio Hw}.


(** ** Construction, whole and interrupted *)

(** X2: when the configuration of the valve pin raises, construction ends
    with that exception right there, with or without [skip_reset]: the only
    call made is [setup_output(port)], no pin is written. *)
Theorem init_stops_when_setup_fails
  (name : string) (port red black : Z) (unique_id : option string)
  (skip_reset : bool) (w : World Hw) (e : PyExn) :
  gpio_setup port (hw w) = inl e ->
  RPiGPIOValve__init__ name port red black unique_id skip_reset w
  = (Raise e, mkWorld (hw w) (log w ++ [SetupOutput port]) (last_state w)).
Proof.
  destruct w as [h l ls]; cbn; intros H. unfold_prog; cbn.
  rewrite H. reflexivity.
Qed.

(** X3: when a write of the reset sequence raises, construction ends with
    that exception; the calls made are the configuration of the valve pin
    and an initial part of the reset sequence, and no entity comes out. *)
Theorem init_stops_when_reset_fails
  (name : string) (port red black : Z) (unique_id : option string)
  (w : World Hw) (h1 : Hw) (e : PyExn) :
  gpio_setup port (hw w) = inr h1 ->
  gpio_writes [(red, 1); (black, 0); (port, 1)] h1 = inl e ->
  exists (k : nat) (h' : Hw),
    RPiGPIOValve__init__ name port red black unique_id false w
    = (Raise e,
       mkWorld h'
         (log w ++ SetupOutput port :: firstn k (reset_calls port red black))
         (last_state w)).
Proof.
  destruct w as [h l ls]; cbn; intros H1 H2. unfold_prog; cbn.
  rewrite H1; cbn.
  step_gpio;
    [ inversion H2; subst; exists 1%nat; eexists; tidy_log; reflexivity | ].
  step_gpio;
    [ inversion H2; subst; exists 2%nat; eexists; tidy_log; reflexivity | ].
  step_gpio.
  inversion H2; subst; exists 4%nat; eexists; tidy_log; reflexivity.
Qed.

(** X4: for all arguments, when the driver takes the calls, construction
    without [skip_reset] configures the valve pin, writes red wire 1, black
    wire 0, sleeps 500 ms and writes valve pin 1, in this order, and gives
    an entity that holds the ports and the unique id it was given, with
    [_state] at [False]. *)
Theorem init_reset_sequence
  (name : string) (port red black : Z) (unique_id : option string)
  (w : World Hw) (h1 h2 : Hw) :
  gpio_setup port (hw w) = inr h1 ->
  gpio_writes [(red, 1); (black, 0); (port, 1)] h1 = inr h2 ->
  exists me : RPiGPIOValve,
    RPiGPIOValve__init__ name port red black unique_id false w
    = (Ok me,
       mkWorld h2
         (log w ++ SetupOutput port :: reset_calls port red black)
         (last_state w))
    /\ _port me = port
    /\ _red_wire_port me = red
    /\ _black_wire_port me = black
    /\ _attr_unique_id me = unique_id
    /\ _state me = false.
Proof.
  intros H1 H2. exists (constructed name port red black unique_id).
  rewrite (init_with_reset name port red black unique_id w h1 h2 H1 H2).
  repeat split.
Qed.

(** X5: an empty name is replaced by the default device name, and any
    other name is kept as it is. *)
Theorem init_name_or_default
  (name : string) (port red black : Z) (unique_id : option string)
  (skip_reset : bool) (w w' : World Hw) (me : RPiGPIOValve) :
  RPiGPIOValve__init__ name port red black unique_id skip_reset w
  = (Ok me, w') ->
  (name = "" -> _attr_name me = DEVICE_DEFAULT_NAME)
  /\ (name <> "" -> _attr_name me = name).
Proof.
  destruct w as [h l ls]. unfold_prog; cbn.
  destruct (gpio_setup port h) as [e | h1]; cbn; [discriminate |].
  assert (Name :
    (name = "" ->
     (if String.eqb name "" then DEVICE_DEFAULT_NAME else name)
     = DEVICE_DEFAULT_NAME)
    /\ (name <> "" ->
        (if String.eqb name "" then DEVICE_DEFAULT_NAME else name) = name)).
  { split; intros Hn.
    - subst; reflexivity.
    - destruct (String.eqb_spec name ""); [contradiction | reflexivity]. }
  destruct skip_reset; cbn.
  - intros H; inversion H; subst; exact Name.
  - repeat step_gpio; intros H; inversion H; subst; exact Name.
Qed.

End Setup.

Section Restoration.

Context {Hw : Type} {G : Gpio Hw}.

(** X6: with nothing in the restore store, attaching the entity makes the
    two host calls and nothing else: no pin is configured or written, no
    sleep, no notification, and the entity and the driver are as before. *)
Theorem restore_without_state_is_inert (o : Obj Hw) :
  last_state (world o) = None ->
  async_added_to_hass o
  = (Ok tt,
     mkObj (self o)
       (mkWorld (hw (world o))
          (log (world o) ++ [SuperAddedToHass; AsyncGetLastState])
          (last_state (world o)))).
Proof.
  intros H. rewrite (restore_nothing o H), H. reflexivity.
Qed.

(** X7: with the label [STATE_OPEN] in the restore store, whatever
    [_state] was, attaching the entity runs the open sequence (red wire 0,
    black wire 1, sleep 500 ms, pulse), leaves [_state] at [False] and
    notifies the host once, at the end. *)
Theorem restore_open_label (o : Obj Hw) (st : LastState) (h' : Hw) :
  last_state (world o) = Some st ->
  state st = STATE_OPEN ->
  gpio_writes (open_writes (self o)) (hw (world o)) = inr h' ->
  async_added_to_hass o
  = (Ok tt,
     mkObj (set__state false (self o))
       (mkWorld h'
          (log (world o)
             ++ [SuperAddedToHass; AsyncGetLastState;
                 WriteOutput (_red_wire_port (self o)) 0;
                 WriteOutput (_black_wire_port (self o)) 1;
                 Sleep 500;
                 WriteOutput (_port (self o)) 0;
                 Sleep 100;
                 WriteOutput (_port (self o)) 1;
                 AsyncWriteHaState (set__state false (self o))])
          (Some st))).
Proof.
  intros Hst Hlabel Hw'.
  pose proof (restore_label o st h' Hst) as R. cbv zeta in R.
  rewrite Hlabel in R. exact (R Hw').
Qed.

(** X8: with any other label in the restore store (["closed"], but also
    ["unknown"] or ["unavailable"]), whatever [_state] was, attaching the
    entity runs the close sequence (red wire 1, black wire 0, sleep 500 ms,
    pulse), leaves [_state] at [True] and notifies the host once, at the
    end. *)
Theorem restore_other_label (o : Obj Hw) (st : LastState) (h' : Hw) :
  last_state (world o) = Some st ->
  state st <> STATE_OPEN ->
  gpio_writes (close_writes (self o)) (hw (world o)) = inr h' ->
  async_added_to_hass o
  = (Ok tt,
     mkObj (set__state true (self o))
       (mkWorld h'
          (log (world o)
             ++ [SuperAddedToHass; AsyncGetLastState;
                 WriteOutput (_red_wire_port (self o)) 1;
                 WriteOutput (_black_wire_port (self o)) 0;
                 Sleep 500;
                 WriteOutput (_port (self o)) 0;
                 Sleep 100;
                 WriteOutput (_port (self o)) 1;
                 AsyncWriteHaState (set__state true (self o))])
          (Some st))).
Proof.
  intros Hst Hlabel Hw'.
  pose proof (restore_label o st h' Hst) as R. cbv zeta in R.
  destruct (String.eqb_spec (state st) STATE_OPEN) as [E | _];
    [contradiction |].
  exact (R Hw').
Qed.

(** X9: restoration assigns [_state] from the stored label before it
    starts the sequence.  When a write of that sequence raises, the
    exception comes out of [async_added_to_hass], the host is not notified,
    and [_state] already holds the restored value, not the one it had. *)
Theorem restore_fault_keeps_restored_flag
  (o : Obj Hw) (st : LastState) (e : PyExn) :
  last_state (world o) = Some st ->
  let c := if String.eqb (state st) STATE_OPEN then OpenValve else CloseValve in
  gpio_writes (command_writes c (self o)) (hw (world o)) = inl e ->
  exists (k : nat) (h' : Hw),
    async_added_to_hass o
    = (Raise e,
       mkObj (set__state (command_state c) (self o))
         (mkWorld h'
            (log (world o) ++ [SuperAddedToHass; AsyncGetLastState]
               ++ firstn k (command_calls c (self o)))
            (Some st))).
Proof.
  destruct o as [v [h l ls]]; cbn -[String.eqb]; intros ->.
  destruct (String.eqb (state st) STATE_OPEN) eqn:E; cbn; intros H;
    unfold_prog; cbn;
    (step_gpio;
     [ inversion H; subst; exists 1%nat; eexists; tidy_log; reflexivity | ]);
    (step_gpio;
     [ inversion H; subst; exists 2%nat; eexists; tidy_log; reflexivity | ]);
    (step_gpio;
     [ inversion H; subst; exists 4%nat; eexists; tidy_log; reflexivity | ]);
    step_gpio;
    inversion H; subst; exists 6%nat; eexists; tidy_log; reflexivity.
Qed.

End Restoration.

Section Histories.

Context {Hw : Type} {G : Gpio Hw}.

Lemma slept_app (evs evs' : list Event) :
  slept (evs ++ evs') = slept evs + slept evs'.
Proof.
  induction evs as [| ev evs IH]; [reflexivity |].
  destruct ev; cbn; rewrite IH; lia.
Qed.

Lemma last_write_app (port : Z) (evs evs' : list Event) :
  last_write port (evs ++ evs')
  = match last_write port evs' with
    | Some value => Some value
    | None => last_write port evs
    end.
Proof.
  induction evs as [| ev evs IH]; cbn.
  - destruct (last_write port evs'); reflexivity.
  - rewrite IH. destruct (last_write port evs'); reflexivity.
Qed.

(** An operation changes nothing of the entity but [_state]. *)
Lemma run_operation_assigns_state_only (op : Operation) (o : Obj Hw) :
  exists b : bool, self (snd (run_operation op o)) = set__state b (self o).
Proof.
  destruct o as [v [h l ls]], op.
  - unfold_prog; cbn; repeat step_gpio;
      solve [ exists false; reflexivity
            | exists (_state v); destruct v; reflexivity ].
  - unfold_prog; cbn; repeat step_gpio;
      solve [ exists true; reflexivity
            | exists (_state v); destruct v; reflexivity ].
  - exists (_state v); destruct v; reflexivity.
  - destruct ls as [st |];
      [| exists (_state v); destruct v; reflexivity].
    unfold_prog; cbn -[String.eqb].
    destruct (String.eqb (state st) STATE_OPEN); cbn; repeat step_gpio;
      solve [ exists false; reflexivity | exists true; reflexivity ].
Qed.

(** X10: two commands in a row both run their whole sequence, also when
    they are the same command (the second is not skipped because the valve
    is already there); the host is notified after each, and the entity ends
    in the state of the second. *)
Theorem commands_compose (c1 c2 : Command) (o : Obj Hw) (h1 h2 : Hw) :
  gpio_writes (command_writes c1 (self o)) (hw (world o)) = inr h1 ->
  gpio_writes (command_writes c2 (self o)) h1 = inr h2 ->
  run_command c2 (snd (run_command c1 o))
  = (Ok tt,
     mkObj (set__state (command_state c2) (self o))
       (mkWorld h2
          (log (world o)
             ++ command_calls c1 (self o)
             ++ [AsyncWriteHaState (set__state (command_state c1) (self o))]
             ++ command_calls c2 (self o)
             ++ [AsyncWriteHaState (set__state (command_state c2) (self o))])
          (last_state (world o)))).
Proof.
  intros H1 H2. rewrite (run_command_ok c1 o h1 H1). cbn [snd].
  erewrite run_command_ok.
  - destruct c1, c2, o as [v [h l ls]]; cbn; tidy_log; reflexivity.
  - destruct c1, c2, o as [v w]; exact H2.
Qed.

(** X11: a command that runs to its end has slept 600 ms (500 for the
    polarity to settle, 100 for the pulse); one that a fault cuts short has
    slept 0, 500 or 600 ms, never more. *)
Theorem command_sleeps_at_most_600 (c : Command) (o : Obj Hw) :
  exists d : Z,
    slept (log (world (snd (run_command c o)))) = slept (log (world o)) + d
    /\ (d = 0 \/ d = 500 \/ d = 600)
    /\ (fst (run_command c o) = Ok tt -> d = 600).
Proof.
  destruct (gpio_writes (command_writes c (self o)) (hw (world o)))
    as [e | h'] eqn:H.
  - destruct (run_command_raise c o e H) as (k & h' & ->). cbn [fst snd world log].
    rewrite slept_app.
    exists (slept (firstn k (command_calls c (self o)))).
    split; [reflexivity |]. split; [| discriminate].
    destruct c; do 7 (try destruct k as [| k]); cbn; auto.
  - rewrite (run_command_ok c o h' H). cbn [fst snd world log].
    rewrite slept_app. exists 600. destruct c; cbn; auto.
Qed.

(** X12: on three distinct pins, a command that runs to its end leaves the
    valve pin written high and the two wires in opposite levels: red 0 and
    black 1 after open, red 1 and black 0 after close. *)
Theorem pins_after_command (c : Command) (o : Obj Hw) (h' : Hw) :
  gpio_writes (command_writes c (self o)) (hw (world o)) = inr h' ->
  _red_wire_port (self o) <> _black_wire_port (self o) ->
  _red_wire_port (self o) <> _port (self o) ->
  _black_wire_port (self o) <> _port (self o) ->
  let after := log (world (snd (run_command c o))) in
  last_write (_port (self o)) after = Some 1
  /\ last_write (_red_wire_port (self o)) after
     = Some (if command_state c then 1 else 0)
  /\ last_write (_black_wire_port (self o)) after
     = Some (if command_state c then 0 else 1).
Proof.
  intros H Hrb Hrp Hbp. cbv zeta. rewrite (run_command_ok c o h' H).
  cbn [snd world log]. rewrite !last_write_app.
  apply Z.eqb_neq in Hrb, Hrp, Hbp.
  assert (Hbr : (_black_wire_port (self o) =? _red_wire_port (self o)) = false)
    by (rewrite Z.eqb_sym; exact Hrb).
  assert (Hpr : (_port (self o) =? _red_wire_port (self o)) = false)
    by (rewrite Z.eqb_sym; exact Hrp).
  assert (Hpb : (_port (self o) =? _black_wire_port (self o)) = false)
    by (rewrite Z.eqb_sym; exact Hbp).
  destruct c; cbn;
    rewrite ?Z.eqb_refl, ?Hrb, ?Hrp, ?Hbp, ?Hbr, ?Hpr, ?Hpb; cbn;
    rewrite ?Z.eqb_refl; repeat split.
Qed.


(** X14: whatever happens, [_pulse] touches the valve pin only: its calls
    are an initial part of write valve pin 0, sleep 100 ms, write valve
    pin 1, and it leaves the entity, [_state] included, as it found it. *)
Theorem pulse_touches_valve_pin_only (o : Obj Hw) :
  exists (k : nat) (h' : Hw),
    snd (_pulse o)
    = mkObj (self o)
        (mkWorld h'
           (log (world o)
              ++ firstn k [WriteOutput (_port (self o)) 0; Sleep 100;
                           WriteOutput (_port (self o)) 1])
           (last_state (world o))).
Proof.
  destruct o as [v [h l ls]]. unfold_prog; cbn.
  step_gpio; [exists 1%nat; eexists; reflexivity |].
  step_gpio; exists 3%nat; eexists; tidy_log; reflexivity.
Qed.

(** A run of operations changes nothing of the entity but [_state]. *)
Lemma run_operations_assign_state_only (ops : list Operation) (o : Obj Hw) :
  exists b : bool, self (run_operations ops o) = set__state b (self o).
Proof.
  revert o. induction ops as [| op ops IH]; intros o; cbn.
  - exists (_state (self o)). destruct o as [v w], v. reflexivity.
  - destruct (IH (snd (run_operation op o))) as [b Hb].
    destruct (run_operation_assigns_state_only op o) as [b' Hb'].
    exists b. rewrite Hb, Hb'. reflexivity.
Qed.

(** X15: over any run of operations on an entity, in any order and whether
    the single calls return or raise, the port, the two wire ports, the
    name, the unique id and the capability and device attributes stay what
    they were at the start. *)
Theorem configuration_is_invariant (ops : list Operation) (o : Obj Hw) :
  same_configuration (self o) (self (run_operations ops o)).
Proof.
  destruct (run_operations_assign_state_only ops o) as [b ->].
  unfold same_configuration. repeat split.
Qed.

(** X16: an entity that comes out of the constructor supports opening and
    closing and neither positioning nor stopping, is a water valve with an
    assumed state, is not polled and reports no position; and this is still
    so after any run of operations. *)
Theorem capabilities_are_fixed
  (name : string) (port red black : Z) (unique_id : option string)
  (skip_reset : bool) (w w' : World Hw) (me : RPiGPIOValve)
  (ops : list Operation) (w0 : World Hw) :
  RPiGPIOValve__init__ name port red black unique_id skip_reset w
  = (Ok me, w') ->
  let later := self (run_operations ops (mkObj me w0)) in
  Z.land (_attr_supported_features later) ValveEntityFeature.OPEN
  = ValveEntityFeature.OPEN
  /\ Z.land (_attr_supported_features later) ValveEntityFeature.CLOSE
     = ValveEntityFeature.CLOSE
  /\ Z.land (_attr_supported_features later) ValveEntityFeature.SET_POSITION
     = 0
  /\ Z.land (_attr_supported_features later) ValveEntityFeature.STOP = 0
  /\ _attr_device_class later = WATER
  /\ _attr_assumed_state later = true
  /\ _attr_should_poll later = false
  /\ _attr_reports_position later = false.
Proof.
  intros Hinit. cbv zeta.
  assert (Hme : _attr_supported_features me = 3
                /\ _attr_device_class me = WATER
                /\ _attr_assumed_state me = true
                /\ _attr_should_poll me = false
                /\ _attr_reports_position me = false).
  { destruct w as [h l ls]. unfold_prog; cbn in Hinit.
    destruct (gpio_setup port h) as [e | h1]; cbn in Hinit;
      [discriminate |].
    destruct skip_reset; cbn in Hinit.
    - inversion Hinit; subst; repeat split.
    - revert Hinit. repeat step_gpio; intros Hinit;
        inversion Hinit; subst; repeat split. }
  destruct Hme as (Hf & Hd & Ha & Hp & Hr).
  destruct (run_operations_assign_state_only ops (mkObj me w0)) as [b ->].
  cbn [self set__state _attr_supported_features _attr_device_class
       _attr_assumed_state _attr_should_poll _attr_reports_position].
  rewrite Hf, Hd, Ha, Hp, Hr.
  repeat split.
Qed.

End Histories.

(** ** The properties at work on concrete boards *)

(** Pin 40 is not on the header: construction stops at [setup_output]. *)
Lemma init_stops_when_setup_fails_witness :
  gpio_setup 40 (mkHeader []) = inl (GpioError 40)
  /\ RPiGPIOValve__init__ "Garden" 40 22 23 None false
       (mkWorld (mkHeader []) [] None)
     = (Raise (GpioError 40), mkWorld (mkHeader []) [SetupOutput 40] None).
Proof.
  split; [reflexivity |].
  apply (init_stops_when_setup_fails "Garden" 40 22 23 None false
           (mkWorld (mkHeader []) [] None) (GpioError 40)).
  reflexivity.
Defined.

(** A board that takes one write: the reset stops at the black wire. *)
Lemma init_stops_when_reset_fails_witness :
  gpio_setup 17 (mkWorn 1) = inr (mkWorn 1)
  /\ gpio_writes [(22, 1); (23, 0); (17, 1)] (mkWorn 1) = inl (GpioError 23)
  /\ exists (k : nat) (h' : WornBoard),
       RPiGPIOValve__init__ "Garden" 17 22 23 None false
         (mkWorld (mkWorn 1) [] None)
       = (Raise (GpioError 23),
          mkWorld h'
            ([] ++ SetupOutput 17 :: firstn k (reset_calls 17 22 23))
            None).
Proof.
  split; [reflexivity |]. split; [reflexivity |].
  apply (init_stops_when_reset_fails "Garden" 17 22 23 None
           (mkWorld (mkWorn 1) [] None) (mkWorn 1) (GpioError 23));
    reflexivity.
Defined.

(** The construction of the spec's scenario. *)
Lemma init_reset_sequence_witness :
  gpio_setup 17 fresh_board = inr (mkBoard [17] [])
  /\ gpio_writes [(22, 1); (23, 0); (17, 1)] (mkBoard [17] [])
     = inr (mkBoard [17] [(17, 1); (23, 0); (22, 1)])
  /\ exists me : RPiGPIOValve,
       RPiGPIOValve__init__ "Garden" 17 22 23 None false
         (mkWorld fresh_board [] None)
       = (Ok me,
          mkWorld (mkBoard [17] [(17, 1); (23, 0); (22, 1)])
            ([] ++ SetupOutput 17 :: reset_calls 17 22 23)
            None)
       /\ _port me = 17
       /\ _red_wire_port me = 22
       /\ _black_wire_port me = 23
       /\ _attr_unique_id me = None
       /\ _state me = false.
Proof.
  split; [reflexivity |]. split; [reflexivity |].
  apply (init_reset_sequence "Garden" 17 22 23 None
           (mkWorld fresh_board [] None) (mkBoard [17] [])
           (mkBoard [17] [(17, 1); (23, 0); (22, 1)]));
    reflexivity.
Defined.

(** A valve configured with an empty name. *)
Lemma init_name_or_default_witness :
  RPiGPIOValve__init__ "" 17 22 23 None true (mkWorld fresh_board [] None)
  = (Ok (constructed "" 17 22 23 None),
     mkWorld (mkBoard [17] []) [SetupOutput 17] None)
  /\ _attr_name (constructed "" 17 22 23 None) = "Unnamed Device".
Proof.
  split; [reflexivity |].
  apply (init_name_or_default "" 17 22 23 None true
           (mkWorld fresh_board [] None)
           (mkWorld (mkBoard [17] []) [SetupOutput 17] None)
           (constructed "" 17 22 23 None));
    reflexivity.
Defined.

(** First start: nothing to restore. *)
Lemma restore_without_state_is_inert_witness :
  last_state (mkWorld fresh_board [] None) = None
  /\ async_added_to_hass (mkObj garden_valve (mkWorld fresh_board [] None))
     = (Ok tt,
        mkObj garden_valve
          (mkWorld fresh_board [SuperAddedToHass; AsyncGetLastState] None)).
Proof.
  split; [reflexivity |].
  apply (restore_without_state_is_inert
           (mkObj garden_valve (mkWorld fresh_board [] None))).
  reflexivity.
Defined.

(** Restart with the label ["open"], on an entity whose flag says closed. *)
Lemma restore_open_label_witness :
  state {| state := "open" |} = STATE_OPEN
  /\ gpio_writes (open_writes (set__state true garden_valve)) fresh_board
     = inr (mkBoard [] [(17, 1); (17, 0); (23, 1); (22, 0)])
  /\ async_added_to_hass
       (mkObj (set__state true garden_valve)
          (mkWorld fresh_board [] (Some {| state := "open" |})))
     = (Ok tt,
        mkObj garden_valve
          (mkWorld (mkBoard [] [(17, 1); (17, 0); (23, 1); (22, 0)])
             [SuperAddedToHass; AsyncGetLastState;
              WriteOutput 22 0; WriteOutput 23 1; Sleep 500;
              WriteOutput 17 0; Sleep 100; WriteOutput 17 1;
              AsyncWriteHaState garden_valve]
             (Some {| state := "open" |}))).
Proof.
  split; [reflexivity |]. split; [reflexivity |].
  apply (restore_open_label
           (mkObj (set__state true garden_valve)
              (mkWorld fresh_board [] (Some {| state := "open" |})))
           {| state := "open" |}
           (mkBoard [] [(17, 1); (17, 0); (23, 1); (22, 0)]));
    reflexivity.
Defined.

(** Restart with the label ["unavailable"]: the valve is closed. *)
Lemma restore_other_label_witness :
  state {| state := "unavailable" |} <> STATE_OPEN
  /\ gpio_writes (close_writes garden_valve) fresh_board
     = inr (mkBoard [] [(17, 1); (17, 0); (23, 0); (22, 1)])
  /\ async_added_to_hass
       (mkObj garden_valve
          (mkWorld fresh_board [] (Some {| state := "unavailable" |})))
     = (Ok tt,
        mkObj (set__state true garden_valve)
          (mkWorld (mkBoard [] [(17, 1); (17, 0); (23, 0); (22, 1)])
             [SuperAddedToHass; AsyncGetLastState;
              WriteOutput 22 1; WriteOutput 23 0; Sleep 500;
              WriteOutput 17 0; Sleep 100; WriteOutput 17 1;
              AsyncWriteHaState (set__state true garden_valve)]
             (Some {| state := "unavailable" |}))).
Proof.
  split; [discriminate |]. split; [reflexivity |].
  apply (restore_other_label
           (mkObj garden_valve
              (mkWorld fresh_board [] (Some {| state := "unavailable" |})))
           {| state := "unavailable" |}
           (mkBoard [] [(17, 1); (17, 0); (23, 0); (22, 1)]));
    [reflexivity | discriminate | reflexivity].
Defined.

(** Restart with the label ["closed"] on a board that takes no write: the
    call raises and the flag already says closed. *)
Lemma restore_fault_keeps_restored_flag_witness :
  gpio_writes (close_writes garden_valve) (mkWorn 0) = inl (GpioError 22)
  /\ exists (k : nat) (h' : WornBoard),
       async_added_to_hass
         (mkObj garden_valve
            (mkWorld (mkWorn 0) [] (Some {| state := "closed" |})))
       = (Raise (GpioError 22),
          mkObj (set__state true garden_valve)
            (mkWorld h'
               ([] ++ [SuperAddedToHass; AsyncGetLastState]
                  ++ firstn k (close_calls garden_valve))
               (Some {| state := "closed" |}))).
Proof.
  split; [reflexivity |].
  apply (restore_fault_keeps_restored_flag
           (mkObj garden_valve
              (mkWorld (mkWorn 0) [] (Some {| state := "closed" |})))
           {| state := "closed" |} (GpioError 22));
    reflexivity.
Defined.

(** Closing twice pulses twice. *)
Lemma commands_compose_witness :
  gpio_writes (close_writes garden_valve) fresh_board
  = inr (mkBoard [] [(17, 1); (17, 0); (23, 0); (22, 1)])
  /\ gpio_writes (close_writes garden_valve)
       (mkBoard [] [(17, 1); (17, 0); (23, 0); (22, 1)])
     = inr (mkBoard []
              [(17, 1); (17, 0); (23, 0); (22, 1);
               (17, 1); (17, 0); (23, 0); (22, 1)])
  /\ run_command CloseValve
       (snd (run_command CloseValve
               (mkObj garden_valve (mkWorld fresh_board [] None))))
     = (Ok tt,
        mkObj (set__state true garden_valve)
          (mkWorld
             (mkBoard []
                [(17, 1); (17, 0); (23, 0); (22, 1);
                 (17, 1); (17, 0); (23, 0); (22, 1)])
             (close_calls garden_valve
                ++ [AsyncWriteHaState (set__state true garden_valve)]
                ++ close_calls garden_valve
                ++ [AsyncWriteHaState (set__state true garden_valve)])
             None)).
Proof.
  split; [reflexivity |]. split; [reflexivity |].
  apply (commands_compose CloseValve CloseValve
           (mkObj garden_valve (mkWorld fresh_board [] None))
           (mkBoard [] [(17, 1); (17, 0); (23, 0); (22, 1)])
           (mkBoard []
              [(17, 1); (17, 0); (23, 0); (22, 1);
               (17, 1); (17, 0); (23, 0); (22, 1)]));
    reflexivity.
Defined.

(** The pins of the spec's valve after an open. *)
Lemma pins_after_command_witness :
  gpio_writes (open_writes garden_valve) fresh_board
  = inr (mkBoard [] [(17, 1); (17, 0); (23, 1); (22, 0)])
  /\ 22 <> 23 /\ 22 <> 17 /\ 23 <> 17
  /\ last_write 17
       (log (world (snd (run_command OpenValve
                           (mkObj garden_valve
                              (mkWorld fresh_board [] None))))))
     = Some 1
  /\ last_write 22
       (log (world (snd (run_command OpenValve
                           (mkObj garden_valve
                              (mkWorld fresh_board [] None))))))
     = Some 0
  /\ last_write 23
       (log (world (snd (run_command OpenValve
                           (mkObj garden_valve
                              (mkWorld fresh_board [] None))))))
     = Some 1.
Proof.
  split; [reflexivity |].
  split; [lia |]. split; [lia |]. split; [lia |].
  apply (pins_after_command OpenValve
           (mkObj garden_valve (mkWorld fresh_board [] None))
           (mkBoard [] [(17, 1); (17, 0); (23, 1); (22, 0)]));
    [reflexivity | cbn; lia | cbn; lia | cbn; lia].
Defined.


(** The spec's valve, closed, restored and opened again, still advertises
    what the constructor gave it. *)
Lemma capabilities_are_fixed_witness :
  RPiGPIOValve__init__ "Garden" 17 22 23 None true
    (mkWorld fresh_board [] None)
  = (Ok garden_valve, mkWorld (mkBoard [17] []) [SetupOutput 17] None)
  /\ let later :=
       self (run_operations [DoClose; DoAddedToHass; DoOpen]
               (mkObj garden_valve (mkWorld (mkBoard [17] []) [] None))) in
     Z.land (_attr_supported_features later) ValveEntityFeature.OPEN
     = ValveEntityFeature.OPEN
     /\ Z.land (_attr_supported_features later) ValveEntityFeature.CLOSE
        = ValveEntityFeature.CLOSE
     /\ Z.land (_attr_supported_features later)
          ValveEntityFeature.SET_POSITION
        = 0
     /\ Z.land (_attr_supported_features later) ValveEntityFeature.STOP = 0
     /\ _attr_device_class later = WATER
     /\ _attr_assumed_state later = true
     /\ _attr_should_poll later = false
     /\ _attr_reports_position later = false.
Proof.
  split; [reflexivity |].
  apply (capabilities_are_fixed "Garden" 17 22 23 None true
           (mkWorld fresh_board [] None)
           (mkWorld (mkBoard [17] []) [SetupOutput 17] None)
           garden_valve [DoClose; DoAddedToHass; DoOpen]
           (mkWorld (mkBoard [17] []) [] None)).
  reflexivity.
Defined.
